(** * AdaSeq: the sequence labeling model

    A shallow embedding of [adaseq/models/sequence_labeling_model.py]
    ([SequenceLabelingModel]: [__init__], [_forward], [forward],
    [_calculate_loss], [_calculate_cl_loss], [decode]) and the properties
    of its loss combination, decoding and projection.

    Conventions.
    - Float tensors are nested lists of real numbers (rank 3 is
      batch x sequence x feature); the reals idealise the floats, and no
      statement below depends on rounding.
    - The torch operations the model applies elementwise (product with the
      mask, softmax, log-softmax, pointwise KL divergence, sums, argmax,
      the affine map of [nn.Linear]) are written out.  Operands are taken
      to have the shapes the model gives them; ragged operands are cut to
      the common prefix instead of raising.
    - The collaborators that live outside this file (the encoder, the
      CRF and partial CRF decoders, word dropout, [get_tokens_mask],
      [PAD_LABEL_ID], the cross-entropy criterion) are parameters of the
      development.
    - Stochastic modules (encoder, word dropout) thread an explicit random
      state; the exceptions of the source are results of an error monad. *)

From Stdlib Require Import Reals Lra ZArith.
From stdpp Require Import base option list strings gmap.

Open Scope R_scope.
Set Warnings "-register-all".

(** ** Tensors *)

Module Tensor.

Abbreviation Tensor1 := (list R) (only parsing).
Abbreviation Tensor2 := (list (list R)) (only parsing).
Abbreviation Tensor3 := (list (list (list R))) (only parsing).
Abbreviation LongTensor2 := (list (list Z)) (only parsing).
Abbreviation BoolTensor2 := (list (list bool)) (only parsing).

(** A tensor of integers of any rank, for decoded label sequences. *)
Inductive LongTensor : Type :=
  | LScalar (z : Z)
  | LDim (items : list LongTensor).

(** [t.size(1)] of a rank 3 tensor. *)
Definition size1 (t : Tensor3) : nat :=
    match t with
    | [] => 0%nat
    | row :: _ => length row
    end.

(** [t.shape[0]]. *)
Definition size0 (t : Tensor3) : nat := length t.

(** [t.squeeze(0)]: drops dimension 0 when it has size one. *)
Definition squeeze0 (t : LongTensor) : LongTensor :=
    match t with
    | LDim [x] => x
    | _ => t
    end.

(** A boolean entry used in arithmetic counts as 0 or 1. *)
Definition b2z (b : bool) : Z := if b then 1%Z else 0%Z.
Definition b2r (b : bool) : R := if b then 1 else 0.

(** [targets * mask] for an integer tensor and a mask of one shape. *)
Definition mul_mask (targets : LongTensor2) (mask : BoolTensor2) : LongTensor2 :=
    zip_with (zip_with (fun t m => (t * b2z m)%Z)) targets mask.

(** [t * mask.unsqueeze(-1)]: the mask entry of a token multiplies every
      feature of that token. *)
Definition mul_mask_unsqueeze (t : Tensor3) (mask : BoolTensor2) : Tensor3 :=
    zip_with (zip_with (fun v m => map (fun x => x * b2r m) v)) t mask.

(** [t * c] and [t / c] for a scalar [c]. *)
Definition mul_scalar (t : Tensor3) (c : R) : Tensor3 :=
    map (map (map (fun x => x * c))) t.
Definition div_scalar (t : Tensor3) (c : R) : Tensor3 :=
    map (map (map (fun x => x / c))) t.

(** [v.sum()] of a vector, and [t.sum()] of a rank 3 tensor: the sum of
    all its entries. *)
Definition sum1 (v : Tensor1) : R := foldr Rplus 0 v.
Definition sum3 (t : Tensor3) : R := sum1 (concat (concat t)).

(** [F.softmax(_, dim=-1)] and [F.log_softmax(_, dim=-1)]. *)
Definition softmax1 (v : Tensor1) : Tensor1 :=
    map (fun x => exp x / sum1 (map exp v)) v.
Definition log_softmax1 (v : Tensor1) : Tensor1 :=
    map (fun x => x - ln (sum1 (map exp v))) v.
Definition softmax (t : Tensor3) : Tensor3 := map (map softmax1) t.
Definition log_softmax (t : Tensor3) : Tensor3 := map (map log_softmax1) t.

(** [F.kl_div(input, target, reduction='none')]: the input holds
      log-probabilities, the target probabilities. *)
Definition kl_point (input target : R) : R := target * (ln target - input).
Definition kl_div (input target : Tensor3) : Tensor3 :=
    zip_with (zip_with (zip_with kl_point)) input target.

(** [t.transpose(1, 2)]. *)
Fixpoint transpose2 (m : Tensor2) : Tensor2 :=
    match m with
    | [] => []
    | [v] => map (fun x => [x]) v
    | v :: m' => zip_with cons v (transpose2 m')
    end.
Definition transpose12 (t : Tensor3) : Tensor3 := map transpose2 t.

(** [v.argmax()]: the index of the first maximal entry (0 for an empty
    vector, on which torch raises). *)
Fixpoint argmax_from (best_i : nat) (best : R) (i : nat) (v : Tensor1) : nat :=
    match v with
    | [] => best_i
    | x :: v' =>
        if Rlt_dec best x then argmax_from i x (S i) v'
        else argmax_from best_i best (S i) v'
    end.
Definition argmax1 (v : Tensor1) : nat :=
    match v with
    | [] => 0%nat
    | x :: v' => argmax_from 0 x 1 v'
    end.

(** [t.argmax(-1)] of a rank 3 tensor, as a rank 2 integer tensor. *)
Definition argmax_last2 (t : Tensor3) : LongTensor2 :=
    map (map (fun v => Z.of_nat (argmax1 v))) t.
Definition of_long2 (t : LongTensor2) : LongTensor :=
    LDim (map (fun row => LDim (map LScalar row)) t).
Definition argmax_last (t : Tensor3) : LongTensor := of_long2 (argmax_last2 t).

(** [x.detach()] keeps the values. *)
Definition detach (t : Tensor3) : Tensor3 := t.

End Tensor.
Import Tensor.

(** ** [nn.Linear] *)

Module Linear.

Record t : Type := mk {
    in_features : nat;
    out_features : nat;
    weight : nat -> nat -> R;   (* row = output feature, column = input feature *)
    bias : nat -> R
  }.

(** One output feature [o] of the affine map applied to the vector [x]. *)
Definition feature (l : t) (x : Tensor1) (o : nat) : R :=
    sum1 (map (fun i => weight l o i * nth i x 0) (seq 0 (in_features l)))
    + bias l o.

Definition apply1 (l : t) (x : Tensor1) : Tensor1 :=
    map (feature l x) (seq 0 (out_features l)).

(** The layer acts on the last dimension. *)
Definition call (l : t) (x : Tensor3) : Tensor3 := map (map (apply1 l)) x.

End Linear.

(** ** Exceptions and the monad of a forward pass *)

Inductive exn : Type :=
| NotImplementedError
| TypeError
| AttributeError.

Definition result (A : Type) : Type := (exn + A)%type.
Definition Ok {A : Type} (a : A) : result A := inr a.
Definition Raise {A : Type} (e : exn) : result A := inl e.

Definition result_bind {A B : Type} (r : result A) (k : A -> result B) : result B :=
  match r with
  | inl e => inl e
  | inr a => k a
  end.

(** Reading an attribute that [__init__] may not have set. *)
Definition getattr {A : Type} (o : option A) : result A :=
  match o with
  | Some a => Ok a
  | None => Raise AttributeError
  end.

(** Using an optional tensor argument that was left at [None]. *)
Definition tensor_arg {A : Type} (o : option A) : result A :=
  match o with
  | Some a => Ok a
  | None => Raise TypeError
  end.

Module Fwd.
Section WithRng.
Context {Rng : Type}.

Definition M (A : Type) : Type := Rng -> result (A * Rng).

Definition ret {A : Type} (a : A) : M A := fun s => Ok (a, s).

Definition bind {A B : Type} (c : M A) (k : A -> M B) : M B :=
      fun s =>
        match c s with
        | inl e => inl e
        | inr (a, s') => k a s'
        end.

(** A computation that cannot fail. *)
Definition run {A : Type} (f : Rng -> A * Rng) : M A := fun s => Ok (f s).

(** A computation that leaves the random state alone. *)
Definition lift {A : Type} (r : result A) : M A :=
      fun s =>
        match r with
        | inl e => inl e
        | inr a => Ok (a, s)
        end.
End WithRng.
End Fwd.

Notation "'let*' x ':=' c 'in' k" := (Fwd.bind c (fun x => k))
  (at level 10, x name, c at level 100, k at level 200, only parsing).
Notation "'let?' x ':=' r 'in' k" := (result_bind r (fun x => k))
  (at level 10, x name, r at level 100, k at level 200, only parsing).

(** ** The collaborators of the model *)

(** An [Encoder] maps tokenized input to per-token embeddings of width
    [hidden_size]; it may draw random numbers (its own dropout). *)
Record Encoder {Tokens Rng : Type} : Type := mkEncoder {
  hidden_size : nat;                       (* [encoder.config.hidden_size] *)
  encoder_call : Tokens -> Rng -> Tensor3 * Rng
}.
Arguments Encoder : clear implicits.

(** The interface shared by [CRF] and [PartialCRF]. *)
Record Decoder : Type := mkDecoder {
  (* [crf(logits, targets, reduction=..., mask=...)]: sequence log-likelihood *)
  crf_call : Tensor3 -> LongTensor2 -> string -> BoolTensor2 -> R;
  (* [crf.decode(logits, mask=...)]: Viterbi paths *)
  crf_decode : Tensor3 -> BoolTensor2 -> LongTensor;
  (* [crf.compute_posterior(logits, mask)] *)
  crf_compute_posterior : Tensor3 -> BoolTensor2 -> Tensor3
}.

(** A [WordDropout] module: a stochastic map on embeddings. *)
Record WordDropout {Rng : Type} : Type := mkWordDropout {
  dropout_rate : R;
  dropout_call : Tensor3 -> Rng -> Tensor3 * Rng
}.
Arguments WordDropout : clear implicits.

(** The values stored in the dictionary that [forward] returns. *)
Inductive Value : Type :=
| VTensor (t : Tensor3)
| VScalar (x : R)
| VLabels (p : LongTensor).

(** The dictionaries [{'logits': logits, 'loss': loss}] and
    [{'logits': logits, 'predicts': predicts}]. *)
Definition outputs_training (logits : Tensor3) (loss : R) : gmap string Value :=
  <["loss" := VScalar loss]> (<["logits" := VTensor logits]> ∅).
Definition outputs_inference (logits : Tensor3) (predicts : LongTensor)
  : gmap string Value :=
  <["predicts" := VLabels predicts]> (<["logits" := VTensor logits]> ∅).

#[global] Instance Rlt_decision (x y : R) : Decision (x < y) := Rlt_dec x y.

(** ** The model *)

Section SequenceLabelingModel.

Context {Tokens Rng EncoderConfig Meta : Type}.

(** [Encoder.from_config(cfg_dict_or_path=...)]. *)
Variable Encoder_from_config : EncoderConfig -> Encoder Tokens Rng.
(** [get_tokens_mask(tokens, length)]. *)
Variable get_tokens_mask : Tokens -> nat -> BoolTensor2.
(** [WordDropout(rate)]. *)
Variable WordDropout_new : R -> WordDropout Rng.
(** [CRF(num_labels, batch_first=...)] and [PartialCRF(num_labels, batch_first=...)]. *)
Variable CRF : nat -> bool -> Decoder.
Variable PartialCRF : nat -> bool -> Decoder.
(** [PAD_LABEL_ID]. *)
Variable PAD_LABEL_ID : Z.
(** [nn.CrossEntropyLoss(reduction=..., ignore_index=...)], as a criterion on
    class-major logits and targets. *)
Variable CrossEntropyLoss : string -> Z -> Tensor3 -> LongTensor2 -> R.
(** The parameters that [nn.Linear(in_features, out_features)] starts from. *)
Variable Linear_weight : nat -> nat -> nat -> nat -> R.
Variable Linear_bias : nat -> nat -> nat -> R.

Definition nn_Linear (in_features out_features : nat) : Linear.t :=
  Linear.mk in_features out_features
    (Linear_weight in_features out_features)
    (Linear_bias in_features out_features).

Record SequenceLabelingModel : Type := mkModel {
  id_to_label : gmap Z string;
  num_labels : nat;
  encoder : Encoder Tokens Rng;
  linear : Linear.t;
  use_dropout : bool;
  dropout : option (WordDropout Rng);        (* set only if [use_dropout] *)
  use_crf : bool;
  crf : option Decoder;                      (* set only if [use_crf] *)
  loss_fn : option (Tensor3 -> LongTensor2 -> R);  (* set only if not [use_crf] *)
  multiview : bool;
  mv_loss_type : string;
  temperature : R;
  mv_interpolation : R;
  training : bool                            (* [nn.Module.training] *)
}.

(** [SequenceLabelingModel.__init__]. *)
Definition __init__
    (id_to_label : gmap Z string)
    (encoder : Encoder Tokens Rng + EncoderConfig)
    (word_dropout : R)
    (use_crf : bool)
    (multiview : bool)
    (temperature : R)
    (mv_loss_type : string)
    (mv_interpolation : R)
    (partial : bool) : SequenceLabelingModel :=
  let num_labels := size id_to_label in
  let encoder :=
    match encoder with
    | inl e => e
    | inr cfg => Encoder_from_config cfg
    end in
  let linear := nn_Linear (hidden_size encoder) num_labels in
  let use_dropout := bool_decide (0 < word_dropout) in
  let dropout := if use_dropout then Some (WordDropout_new word_dropout) else None in
  let crf :=
    if use_crf then
      if partial then Some (PartialCRF num_labels true)
      else Some (CRF num_labels true)
    else None in
  let loss_fn :=
    if use_crf then None
    else Some (CrossEntropyLoss "mean" PAD_LABEL_ID) in
  mkModel id_to_label num_labels encoder linear use_dropout dropout
    use_crf crf loss_fn multiview mv_loss_type temperature mv_interpolation
    true.

(** [nn.Module.train(mode)]; [eval()] is [train false]. *)
Definition train (mode : bool) (self : SequenceLabelingModel) : SequenceLabelingModel :=
  mkModel (id_to_label self) (num_labels self) (encoder self) (linear self)
    (use_dropout self) (dropout self) (use_crf self) (crf self) (loss_fn self)
    (multiview self) (mv_loss_type self) (temperature self)
    (mv_interpolation self) mode.

(** [SequenceLabelingModel._forward]. *)
Definition _forward (self : SequenceLabelingModel) (tokens : Tokens)
  : Fwd.M Tensor3 :=
  let* embed := Fwd.run (encoder_call (encoder self) tokens) in
  let* embed :=
    if use_dropout self then
      let* d := Fwd.lift (getattr (dropout self)) in
      Fwd.run (dropout_call d embed)
    else Fwd.ret embed in
  let logits := Linear.call (linear self) embed in
  Fwd.ret logits.

(** [SequenceLabelingModel._calculate_loss]. *)
Definition _calculate_loss (self : SequenceLabelingModel)
    (logits : Tensor3) (targets : option LongTensor2) (mask : BoolTensor2)
  : result R :=
  if use_crf self then
    let? targets := tensor_arg targets in
    let targets := mul_mask targets mask in
    let? crf := getattr (crf self) in
    Ok (- crf_call crf logits targets "mean" mask)
  else
    let? loss_fn := getattr (loss_fn self) in
    let? targets := tensor_arg targets in
    Ok (loss_fn (transpose12 logits) targets).

(** [SequenceLabelingModel._calculate_cl_loss]. *)
Definition _calculate_cl_loss (self : SequenceLabelingModel)
    (ext_view_logits origin_view_logits : Tensor3) (mask : BoolTensor2) (T : R)
  : result R :=
  if multiview self then
    let batch_size := size0 ext_view_logits in
    let ext_view_logits := detach ext_view_logits in
    let? _loss :=
      if String.eqb (mv_loss_type self) "kl" then
        Ok (mul_scalar
              (mul_scalar
                 (mul_mask_unsqueeze
                    (kl_div (log_softmax (div_scalar origin_view_logits T))
                            (softmax (div_scalar ext_view_logits T)))
                    mask)
                 T)
              T)
      else if String.eqb (mv_loss_type self) "crf_kl" then
        if use_crf self then
          let? crf := getattr (crf self) in
          let origin_view_log_posterior :=
            crf_compute_posterior crf origin_view_logits mask in
          let ext_view_log_posterior :=
            crf_compute_posterior crf ext_view_logits mask in
          Ok (mul_scalar
                (mul_scalar
                   (mul_mask_unsqueeze
                      (kl_div (log_softmax (div_scalar origin_view_log_posterior T))
                              (softmax (div_scalar ext_view_log_posterior T)))
                      mask)
                   T)
                T)
        else Raise NotImplementedError
      else Raise NotImplementedError in
    Ok (sum3 _loss / INR batch_size)
  else Ok 0.

(** [SequenceLabelingModel.decode]. *)
Definition decode (self : SequenceLabelingModel)
    (logits : Tensor3) (mask : BoolTensor2) : result LongTensor :=
  if use_crf self then
    let? crf := getattr (crf self) in
    Ok (squeeze0 (crf_decode crf logits mask))
  else Ok (argmax_last logits).

(** [SequenceLabelingModel.forward]. *)
Definition forward (self : SequenceLabelingModel)
    (tokens : Tokens)
    (label_ids : option LongTensor2)
    (meta : option Meta)
    (origin_tokens : option Tokens)
    (origin_mask : option BoolTensor2)
  : Fwd.M (gmap string Value) :=
  let* logits := _forward self tokens in
  let mask := get_tokens_mask tokens (size1 logits) in
  if training self then
    let crf_mask := match origin_mask with
                    | Some om => om
                    | None => mask
                    end in
    let* loss := Fwd.lift (_calculate_loss self logits label_ids crf_mask) in
    let* loss :=
      match (if multiview self then origin_tokens else None) with
      | Some origin_tokens =>   (* for multiview training *)
          let* origin_view_logits := _forward self origin_tokens in
          let origin_mask :=
            get_tokens_mask origin_tokens (size1 origin_view_logits) in
          let* origin_view_loss :=
            Fwd.lift (_calculate_loss self origin_view_logits label_ids origin_mask) in
          if String.eqb (mv_loss_type self) "kl" then
            let* cl_kl_loss :=
              Fwd.lift (_calculate_cl_loss self logits origin_view_logits mask
                          (temperature self)) in
            Fwd.ret (mv_interpolation self * (loss + origin_view_loss)
                     + (1 - mv_interpolation self) * cl_kl_loss)
          else if String.eqb (mv_loss_type self) "crf_kl" then
            let* cl_kl_loss :=
              Fwd.lift (_calculate_cl_loss self logits origin_view_logits mask
                          (temperature self)) in
            Fwd.ret (mv_interpolation self * (loss + origin_view_loss)
                     + (1 - mv_interpolation self) * cl_kl_loss)
          else Fwd.ret loss
      | None => Fwd.ret loss
      end in
    let outputs := outputs_training logits loss in
    Fwd.ret outputs
  else
    let* predicts := Fwd.lift (decode self logits mask) in
    let outputs := outputs_inference logits predicts in
    Fwd.ret outputs.

End SequenceLabelingModel.

Arguments SequenceLabelingModel : clear implicits.

(** ** A small concrete instance

    Token ids stand for tokens (0 is padding), the random state is a
    counter, and the decoders are CRFs whose transition scores are all
    zero, so that likelihoods and Viterbi paths factor over positions.
    Used to run the model on explicit inputs. *)

Module Fixture.

Definition Tokens : Type := list (list Z).
Definition Rng : Type := nat.
Definition EncoderConfig : Type := nat.
Definition Meta : Type := unit.

(** Every token id is embedded as a constant vector; one draw per call. *)
Definition embed_tokens (h : nat) (tokens : Tokens) : Tensor3 :=
  map (map (fun z => replicate h (IZR z))) tokens.
Definition Encoder_from_config (h : EncoderConfig) : Encoder Tokens Rng :=
  mkEncoder Tokens Rng h (fun tokens s => (embed_tokens h tokens, S s)).

Definition get_tokens_mask (tokens : Tokens) (len : nat) : BoolTensor2 :=
  map (fun row => map (fun z => negb (Z.eqb z 0)) (take len row)) tokens.

(** Zeroes the whole embedding of the tokens that the state selects. *)
Definition drop_tokens (s : Rng) (row : Tensor2) : Tensor2 :=
  imap (fun i v => if Nat.even (i + s) then map (fun _ => 0) v else v) row.
Definition WordDropout_new (rate : R) : WordDropout Rng :=
  mkWordDropout Rng rate (fun e s => (map (drop_tokens s) e, S s)).

(** Log-likelihood of one label sequence under zero transition scores. *)
Definition token_loglik (partial : bool) (v : Tensor1) (y : Z) (m : bool) : R :=
  if m then
    if partial && (y <? 0)%Z then 0
    else nth (Z.to_nat y) (log_softmax1 v) 0
  else 0.
Definition seq_loglik (partial : bool) (row : Tensor2) (ys : list Z) (ms : list bool) : R :=
  sum1 (zip_with (fun vy m => token_loglik partial vy.1 vy.2 m) (zip row ys) ms).
Definition loglik (partial : bool) (logits : Tensor3) (targets : LongTensor2)
    (reduction : string) (mask : BoolTensor2) : R :=
  let total :=
    sum1 (zip_with (fun ry ms => seq_loglik partial ry.1 ry.2 ms) (zip logits targets) mask) in
  if String.eqb reduction "mean" then total / INR (length logits) else total.

Definition CRF (num_labels : nat) (batch_first : bool) : Decoder :=
  mkDecoder (loglik false)
            (fun logits mask => LDim [argmax_last logits])
            (fun logits mask => log_softmax logits).
Definition PartialCRF (num_labels : nat) (batch_first : bool) : Decoder :=
  mkDecoder (loglik true)
            (fun logits mask => LDim [argmax_last logits])
            (fun logits mask => log_softmax logits).

Definition PAD_LABEL_ID : Z := (-100)%Z.

(** Cross entropy of class-major logits, skipping the ignored targets. *)
Definition CrossEntropyLoss (reduction : string) (ignore_index : Z)
    (logits_cm : Tensor3) (targets : LongTensor2) : R :=
  let terms :=
    concat (zip_with
              (zip_with (fun v y =>
                           if Z.eqb y ignore_index then None
                           else Some (- nth (Z.to_nat y) (log_softmax1 v) 0)))
              (transpose12 logits_cm) targets) in
  let kept := omap (fun o : option R => o) terms in
  if String.eqb reduction "mean" then sum1 kept / INR (length kept) else sum1 kept.

Definition Linear_weight (in_features out_features o i : nat) : R :=
  if Nat.eqb o i then 1 else 0.
Definition Linear_bias (in_features out_features o : nat) : R := 0.

Definition init :=
  @__init__ Tokens Rng EncoderConfig Encoder_from_config WordDropout_new
    CRF PartialCRF PAD_LABEL_ID CrossEntropyLoss Linear_weight Linear_bias.

Definition fwd := @forward Tokens Rng Meta get_tokens_mask.

(** Three labels and an encoder of width two. *)
Definition labels : gmap Z string :=
  <[2%Z := "I-PER"]> (<[1%Z := "B-PER"]> (<[0%Z := "O"]> ∅)).
Definition enc : Encoder Tokens Rng + EncoderConfig := inr 2%nat.

(** One sentence of two tokens and a padding position, and a second view
    of it. *)
Definition tokens : Tokens := [[5; 7; 0]%Z].
Definition origin_tokens : Tokens := [[5; 6; 0]%Z].
Definition label_ids : LongTensor2 := [[1; 2; -100]%Z].

End Fixture.

(** ** Facts about the tensor operations *)

Section TensorFacts.

(** Entry [(b, s)] of a rank 2 tensor and entry [(b, s, c)] of a rank 3 one. *)
Definition at2 {A : Type} (t : list (list A)) (b s : nat) : option A :=
  t !! b ≫= fun row => row !! s.
Definition at3 (t : Tensor3) (b s c : nat) : option R :=
  at2 t b s ≫= fun v => v !! c.

(** The tensor [F.kl_div(F.log_softmax(origin / T, dim=-1),
    F.softmax(ext / T, dim=-1), reduction='none') * mask.unsqueeze(-1) * T * T]
    that [_calculate_cl_loss] sums. *)
Definition kl_terms (origin ext : Tensor3) (mask : BoolTensor2) (T : R) : Tensor3 :=
  mul_scalar
    (mul_scalar
       (mul_mask_unsqueeze
          (kl_div (log_softmax (div_scalar origin T))
                  (softmax (div_scalar ext T)))
          mask) T) T.

(** [i] is the position of the first maximal entry of [v]. *)
Definition is_first_max (v : Tensor1) (i : nat) : Prop :=
  exists x, v !! i = Some x
    /\ (forall j y, v !! j = Some y -> y <= x)
    /\ (forall j y, (j < i)%nat -> v !! j = Some y -> y < x).

Lemma sum1_cons (x : R) (v : Tensor1) : sum1 (x :: v) = x + sum1 v.
Proof. reflexivity. Qed.

Lemma sum1_exp_nonneg (v : Tensor1) : 0 <= sum1 (map exp v).
Proof.
  induction v as [|x v IH].
  - change (sum1 (map exp [])) with 0. lra.
  - change (map exp (x :: v)) with (exp x :: map exp v).
    rewrite sum1_cons. pose proof (exp_pos x). lra.
Qed.

Lemma sum1_exp_pos (v : Tensor1) : v <> [] -> 0 < sum1 (map exp v).
Proof.
  destruct v as [|x v]; [congruence|]. intros _.
  change (map exp (x :: v)) with (exp x :: map exp v).
  rewrite sum1_cons.
  pose proof (exp_pos x). pose proof (sum1_exp_nonneg v). lra.
Qed.

Lemma argmax_from_map (f : R -> R) :
  (forall a b, a < b <-> f a < f b) ->
  forall v best_i best i,
    argmax_from best_i (f best) i (map f v) = argmax_from best_i best i v.
Proof.
  intros Hf. induction v as [|x v IH]; intros best_i best i; simpl.
  - reflexivity.
  - destruct (Rlt_dec best x) as [Hlt|Hge], (Rlt_dec (f best) (f x)) as [Hlt'|Hge'].
    + apply IH.
    + exfalso. apply Hge'. now apply (proj1 (Hf best x)).
    + exfalso. apply Hge. now apply (proj2 (Hf best x)).
    + apply IH.
Qed.

Lemma argmax1_map (f : R -> R) (v : Tensor1) :
  (forall a b, a < b <-> f a < f b) -> argmax1 (map f v) = argmax1 v.
Proof.
  intros Hf. destruct v as [|x v]; simpl; [reflexivity|].
  now apply argmax_from_map.
Qed.

Lemma scaled_exp_increasing (S : R) :
  0 < S -> forall a b, a < b <-> exp a / S < exp b / S.
Proof.
  intros HS a b.
  assert (HiS : 0 < / S) by now apply Rinv_0_lt_compat.
  unfold Rdiv. split; intros H.
  - apply Rmult_lt_compat_r; [assumption|]. now apply exp_increasing.
  - destruct (Rlt_dec a b) as [|Hn]; [assumption|exfalso].
    apply Rnot_lt_le in Hn.
    assert (exp b <= exp a).
    { destruct Hn as [Hn|Hn]; [left; now apply exp_increasing | subst; right; reflexivity]. }
    assert (exp b * / S <= exp a * / S) by (apply Rmult_le_compat_r; lra).
    lra.
Qed.

(** Softmax does not move the first maximum. *)
Lemma argmax1_softmax1 (v : Tensor1) : argmax1 (softmax1 v) = argmax1 v.
Proof.
  unfold softmax1. destruct v as [|x v]; [reflexivity|].
  apply argmax1_map, scaled_exp_increasing, sum1_exp_pos. discriminate.
Qed.

Lemma argmax_last2_softmax (t : Tensor3) :
  argmax_last2 (softmax t) = argmax_last2 t.
Proof.
  unfold argmax_last2, softmax.
  rewrite map_map. apply map_ext; intros row.
  rewrite map_map. apply map_ext; intros v.
  now rewrite argmax1_softmax1.
Qed.

Lemma argmax_from_spec (v pre : Tensor1) (best_i : nat) (best : R) :
  pre !! best_i = Some best ->
  (forall j y, pre !! j = Some y -> y <= best) ->
  (forall j y, (j < best_i)%nat -> pre !! j = Some y -> y < best) ->
  is_first_max (pre ++ v) (argmax_from best_i best (length pre) v).
Proof.
  revert pre best_i best.
  induction v as [|x v IH]; intros pre best_i best Hbest Hmax Hfirst; simpl.
  - rewrite app_nil_r. exists best. auto.
  - assert (Hlen : length (pre ++ [x]) = S (length pre))
      by (rewrite length_app; simpl; lia).
    replace (pre ++ x :: v) with ((pre ++ [x]) ++ v)
      by (rewrite <- app_assoc; reflexivity).
    rewrite <- Hlen.
    destruct (Rlt_dec best x) as [Hlt|Hge].
    + apply IH.
      * rewrite lookup_app_r by lia. now rewrite Nat.sub_diag.
      * intros j y Hj. apply lookup_app_Some in Hj as [Hj|[_ Hj]].
        -- left. eapply Rle_lt_trans; [eapply Hmax, Hj | exact Hlt].
        -- apply list_lookup_singleton_Some in Hj as [_ ->]. right; reflexivity.
      * intros j y Hlt' Hj. rewrite lookup_app_l in Hj by assumption.
        eapply Rle_lt_trans; [eapply Hmax, Hj | exact Hlt].
    + apply Rnot_lt_le in Hge. apply IH.
      * rewrite lookup_app_l; [assumption|]. now apply lookup_lt_Some in Hbest.
      * intros j y Hj. apply lookup_app_Some in Hj as [Hj|[_ Hj]].
        -- eapply Hmax, Hj.
        -- apply list_lookup_singleton_Some in Hj as [_ ->]. exact Hge.
      * intros j y Hlt' Hj. apply lookup_lt_Some in Hbest.
        rewrite lookup_app_l in Hj by lia. eapply Hfirst; eassumption.
Qed.

(** [argmax1] returns the position of the first maximal entry. *)
Lemma argmax1_spec (v : Tensor1) : v <> [] -> is_first_max v (argmax1 v).
Proof.
  destruct v as [|x v]; [congruence|]. intros _. simpl.
  apply (argmax_from_spec v [x] 0 x).
  - reflexivity.
  - intros j y Hj. apply list_lookup_singleton_Some in Hj as [_ ->]. right; reflexivity.
  - intros j y Hj. lia.
Qed.

(** The operations on small inputs. *)

Example mul_mask_pads_to_zero :
  mul_mask [[1; 2; -100]%Z; [2; -100; -100]%Z]
           [[true; true; false]; [true; false; false]]
  = [[1; 2; 0]%Z; [2; 0; 0]%Z].
Proof. reflexivity. Qed.

Example squeeze0_single_best_path :
  squeeze0 (LDim [LDim [LDim [LScalar 1; LScalar 2]]])
  = LDim [LDim [LScalar 1; LScalar 2]].
Proof. reflexivity. Qed.

Example squeeze0_keeps_wider_dimension :
  squeeze0 (LDim [LDim [LScalar 1]; LDim [LScalar 2]])
  = LDim [LDim [LScalar 1]; LDim [LScalar 2]].
Proof. reflexivity. Qed.

Example transpose2_example :
  transpose2 [[1; 2; 3]; [4; 5; 6]] = [[1; 4]; [2; 5]; [3; 6]].
Proof. reflexivity. Qed.

Example argmax1_first_of_ties : argmax1 [1; 3; 2; 3] = 1%nat.
Proof.
  unfold argmax1, argmax_from.
  repeat (destruct (Rlt_dec _ _) as [?|?]; try lra).
  reflexivity.
Qed.

(** A softmax is a distribution, and the log-softmax is its logarithm. *)
Lemma sum1_map_div (S : R) (v : Tensor1) :
  sum1 (map (fun x => x / S) v) = sum1 v / S.
Proof.
  induction v as [|x v IH].
  - change (sum1 (map (fun x => x / S) [])) with 0.
    change (sum1 []) with 0. unfold Rdiv. ring.
  - change (map (fun x => x / S) (x :: v))
      with (x / S :: map (fun x => x / S) v).
    rewrite !sum1_cons, IH. unfold Rdiv. ring.
Qed.

Lemma softmax1_sums_to_one (v : Tensor1) : v <> [] -> sum1 (softmax1 v) = 1.
Proof.
  intros Hv. unfold softmax1.
  pose proof (sum1_exp_pos v Hv) as Hpos.
  replace (map (fun x => exp x / sum1 (map exp v)) v)
    with (map (fun y => y / sum1 (map exp v)) (map exp v))
    by (rewrite map_map; reflexivity).
  rewrite sum1_map_div. field. lra.
Qed.

Lemma log_softmax1_is_ln_softmax1 (v : Tensor1) :
  log_softmax1 v = map ln (softmax1 v).
Proof.
  unfold log_softmax1, softmax1. rewrite map_map.
  destruct v as [|x0 v0]; [reflexivity|].
  set (S := sum1 (map exp (x0 :: v0))).
  assert (HS : 0 < S) by (apply sum1_exp_pos; discriminate).
  apply map_ext; intros x.
  unfold Rdiv. rewrite ln_mult; [|apply exp_pos|now apply Rinv_0_lt_compat].
  rewrite ln_exp, ln_Rinv by assumption. ring.
Qed.

(** Sums of tensors, entry by entry. *)

Lemma sum1_zero (v : Tensor1) : Forall (fun x => x = 0) v -> sum1 v = 0.
Proof.
  induction 1 as [|x v Hx _ IH].
  - reflexivity.
  - rewrite sum1_cons. lra.
Qed.

Lemma Forall_at2 {A : Type} (P : A -> Prop) (t : list (list A)) :
  (forall b s x, at2 t b s = Some x -> P x) -> Forall (Forall P) t.
Proof.
  intros H. apply Forall_lookup_2; intros b row Hb.
  apply Forall_lookup_2; intros s x Hs.
  apply (H b s). unfold at2. now rewrite Hb.
Qed.

Lemma Forall_at3 (P : R -> Prop) (t : Tensor3) :
  (forall b s c x, at3 t b s c = Some x -> P x) -> Forall (Forall (Forall P)) t.
Proof.
  intros H. apply Forall_at2; intros b s v Hv.
  apply Forall_lookup_2; intros c x Hc.
  apply (H b s c). unfold at3. now rewrite Hv.
Qed.

Lemma sum3_zero (t : Tensor3) :
  (forall b s c x, at3 t b s c = Some x -> x = 0) -> sum3 t = 0.
Proof.
  intros H. apply sum1_zero.
  apply Forall_concat, Forall_concat, Forall_at3, H.
Qed.

End TensorFacts.

(** ** Properties of the model *)

Section Properties.

Context {Tokens Rng EncoderConfig Meta : Type}.

Variable Encoder_from_config : EncoderConfig -> Encoder Tokens Rng.
Variable get_tokens_mask : Tokens -> nat -> BoolTensor2.
Variable WordDropout_new : R -> WordDropout Rng.
Variable CRF : nat -> bool -> Decoder.
Variable PartialCRF : nat -> bool -> Decoder.
Variable PAD_LABEL_ID : Z.
Variable CrossEntropyLoss : string -> Z -> Tensor3 -> LongTensor2 -> R.
Variable Linear_weight : nat -> nat -> nat -> nat -> R.
Variable Linear_bias : nat -> nat -> nat -> R.

#[local] Abbreviation init :=
  (__init__ Encoder_from_config WordDropout_new CRF PartialCRF PAD_LABEL_ID
     CrossEntropyLoss Linear_weight Linear_bias).
#[local] Abbreviation fwd := (forward (Meta := Meta) get_tokens_mask).

Implicit Types (id_to_label : gmap Z string)
  (enc : Encoder Tokens Rng + EncoderConfig)
  (word_dropout temp interp : R)
  (use_crf multiview partial mode : bool)
  (loss_type : string)
  (tokens : Tokens) (rng : Rng)
  (logits : Tensor3) (targets label_ids : LongTensor2) (mask : BoolTensor2).

Ltac unfold_model :=
  unfold forward, _forward, _calculate_loss, _calculate_cl_loss, decode,
    Fwd.bind, Fwd.run, Fwd.lift, Fwd.ret, result_bind, getattr, tensor_arg,
    Ok, Raise in *.

(** *** The forward pass of a constructed model *)

Lemma _forward_init id_to_label enc word_dropout use_crf multiview
    temp loss_type interp partial mode tokens rng :
  let self := train mode (init id_to_label enc word_dropout use_crf multiview
                            temp loss_type interp partial) in
  let embedded := encoder_call (encoder self) tokens rng in
  let dropped := dropout_call (WordDropout_new word_dropout) embedded.1 embedded.2 in
  _forward self tokens rng =
    if bool_decide (0 < word_dropout)
    then Ok (Linear.call (linear self) dropped.1, dropped.2)
    else Ok (Linear.call (linear self) embedded.1, embedded.2).
Proof.
  unfold_model. simpl.
  destruct (encoder_call _ tokens rng) as [e r1]. simpl.
  case_bool_decide; simpl.
  - destruct (dropout_call _ e r1) as [e' r2]. reflexivity.
  - reflexivity.
Qed.

Lemma _forward_init_ok id_to_label enc word_dropout use_crf multiview
    temp loss_type interp partial mode tokens rng :
  let self := train mode (init id_to_label enc word_dropout use_crf multiview
                            temp loss_type interp partial) in
  exists embed rng',
    _forward self tokens rng = Ok (Linear.call (linear self) embed, rng').
Proof.
  intros self. subst self. rewrite _forward_init.
  case_bool_decide; eauto.
Qed.

(** *** Projection to logits and word dropout *)

Lemma Linear_apply1_length (l : Linear.t) (x : Tensor1) :
  length (Linear.apply1 l x) = Linear.out_features l.
Proof. unfold Linear.apply1. now rewrite length_map, length_seq. Qed.


Lemma Linear_call_pointwise (l : Linear.t) (x : Tensor3) :
  Forall2 (Forall2 (fun e v =>
             length v = Linear.out_features l
             /\ v = map (fun o =>
                          sum1 (map (fun i => Linear.weight l o i * nth i e 0)
                                    (seq 0 (Linear.in_features l)))
                          + Linear.bias l o)
                       (seq 0 (Linear.out_features l))))
    x (Linear.call l x).
Proof.
  unfold Linear.call.
  induction x as [|row x IH]; simpl; constructor; [|assumption].
  induction row as [|e row IHrow]; simpl; constructor; [|assumption].
  split; [apply Linear_apply1_length | reflexivity].
Qed.

(** C7.  The linear layer of a constructed model reads vectors of the
    encoder's hidden size and writes vectors of [num_labels] entries, where
    [num_labels] is the size of the [id_to_label] mapping given to
    [__init__].  Every forward pass returns logits that match, token by
    token, the embeddings that come out of the encoder (after word dropout
    when its rate is positive): the logits vector of a token has as many
    entries as [id_to_label], and its entry [o] is the sum over the
    [hidden_size] inputs [i] of [weight o i] times entry [i] of the token's
    embedding, plus [bias o]. *)
Theorem linear_projects_to_num_labels id_to_label enc word_dropout use_crf
    multiview temp loss_type interp partial mode tokens rng :
  let self := train mode (init id_to_label enc word_dropout use_crf multiview
                            temp loss_type interp partial) in
  let embedded := encoder_call (encoder self) tokens rng in
  let dropped := dropout_call (WordDropout_new word_dropout) embedded.1 embedded.2 in
  let input := if bool_decide (0 < word_dropout) then dropped else embedded in
  num_labels self = size id_to_label
  /\ Linear.in_features (linear self) = hidden_size (encoder self)
  /\ Linear.out_features (linear self) = num_labels self
  /\ exists logits,
       _forward self tokens rng = Ok (logits, input.2)
       /\ Forall2 (Forall2 (fun e v =>
                      length v = size id_to_label
                      /\ v = map (fun o =>
                                   sum1 (map (fun i =>
                                                Linear.weight (linear self) o i
                                                * nth i e 0)
                                             (seq 0 (hidden_size (encoder self))))
                                   + Linear.bias (linear self) o)
                                (seq 0 (size id_to_label))))
            input.1 logits.
Proof.
  intros self embedded dropped input. repeat split; try reflexivity.
  exists (Linear.call (linear self) input.1). split.
  - subst self embedded dropped input. rewrite _forward_init.
    case_bool_decide; reflexivity.
  - apply (Linear_call_pointwise (linear self) input.1).
Qed.

(** C6.  In [_forward], word dropout acts on the embeddings that the
    encoder returns and the linear layer reads its result: with a positive
    rate the logits are the projection of the dropped-out embeddings; with
    the rate 0.0 the model holds no dropout module and the logits are the
    projection of the encoder's embeddings themselves. *)
Theorem word_dropout_before_projection id_to_label enc word_dropout use_crf
    multiview temp loss_type interp partial mode tokens rng :
  (0 < word_dropout ->
   let self := train mode (init id_to_label enc word_dropout use_crf multiview
                             temp loss_type interp partial) in
   let embedded := encoder_call (encoder self) tokens rng in
   let dropped := dropout_call (WordDropout_new word_dropout) embedded.1 embedded.2 in
   dropout self = Some (WordDropout_new word_dropout)
   /\ _forward self tokens rng = Ok (Linear.call (linear self) dropped.1, dropped.2))
  /\
  (let self := train mode (init id_to_label enc 0 use_crf multiview
                             temp loss_type interp partial) in
   let embedded := encoder_call (encoder self) tokens rng in
   use_dropout self = false
   /\ dropout self = None
   /\ _forward self tokens rng = Ok (Linear.call (linear self) embedded.1, embedded.2)).
Proof.
  split.
  - intros Hpos self embedded dropped. subst self embedded dropped.
    rewrite _forward_init. simpl.
    rewrite bool_decide_eq_true_2 by assumption. split; reflexivity.
  - intros self embedded. subst self embedded.
    rewrite _forward_init. simpl.
    rewrite bool_decide_eq_false_2 by lra. repeat split; reflexivity.
Qed.

(** *** The primary loss *)

Lemma lookup_map {A B : Type} (f : A -> B) (l : list A) (i : nat) :
  map f l !! i = f <$> l !! i.
Proof. exact (list_lookup_fmap f l i). Qed.

Lemma at2_mul_mask targets mask (b s : nat) :
  at2 (mul_mask targets mask) b s =
    at2 targets b s ≫= fun t => at2 mask b s ≫= fun m => Some (t * b2z m)%Z.
Proof.
  unfold at2, mul_mask. rewrite lookup_zip_with.
  destruct (targets !! b) as [trow|]; simpl; [|reflexivity].
  destruct (mask !! b) as [mrow|]; simpl.
  - rewrite lookup_zip_with. reflexivity.
  - now destruct (trow !! s).
Qed.

(** C2.  With [use_crf] the loss of [_calculate_loss] is the negation of
    what the CRF returns for the logits, the (masked) targets, the
    reduction 'mean' and the mask, that is of the mean sequence
    log-likelihood. *)
Theorem crf_loss_is_negated_mean_log_likelihood id_to_label enc word_dropout
    multiview temp loss_type interp partial mode
    logits targets mask :
  let self := train mode (init id_to_label enc word_dropout true multiview
                            temp loss_type interp partial) in
  exists decoder,
    crf self = Some decoder
    /\ _calculate_loss self logits (Some targets) mask
       = Ok (- crf_call decoder logits (mul_mask targets mask) "mean" mask).
Proof.
  intros self. subst self. unfold_model. simpl.
  destruct partial; eexists; split; reflexivity.
Qed.

(** C8.  With [use_crf] the targets handed to the CRF are the elementwise
    product of the label ids and the mask; at every position where the
    mask is false that product is 0, whatever label id is stored there,
    and 0 is a label index as soon as there is a label. *)
Theorem crf_targets_zero_where_masked id_to_label enc word_dropout
    multiview temp loss_type interp partial mode
    logits targets mask :
  let self := train mode (init id_to_label enc word_dropout true multiview
                            temp loss_type interp partial) in
  exists decoder crf_targets,
    crf self = Some decoder
    /\ _calculate_loss self logits (Some targets) mask
       = Ok (- crf_call decoder logits crf_targets "mean" mask)
    /\ crf_targets = mul_mask targets mask
    /\ forall b s pad,
         at2 targets b s = Some pad ->
         at2 mask b s = Some false ->
         at2 crf_targets b s = Some 0%Z
         /\ (id_to_label <> ∅ -> (0 <= 0 < Z.of_nat (num_labels self))%Z).
Proof.
  intros self. subst self. unfold_model. simpl.
  exists (if partial then PartialCRF (size id_to_label) true
          else CRF (size id_to_label) true), (mul_mask targets mask).
  split; [now destruct partial|]. split; [now destruct partial|].
  split; [reflexivity|].
  intros b s pad Ht Hm. split.
  - rewrite at2_mul_mask, Ht, Hm. simpl. f_equal. lia.
  - intros Hne. apply map_size_non_empty_iff in Hne. lia.
Qed.

(** *** Decoding *)

(** C4.  A model constructed with [use_crf] decodes with its CRF, which is
    a [PartialCRF] when [partial] was set and a [CRF] otherwise: [decode]
    returns the CRF's decoding of the logits under the mask (with the
    leading dimension squeezed when it has size one).  Without [use_crf]
    it returns, for every token, the position of the first maximal logit;
    taking the softmax first gives the same labels. *)
Theorem decode_crf_or_argmax id_to_label enc word_dropout
    multiview temp loss_type interp partial mode
    logits mask :
  (let self := train mode (init id_to_label enc word_dropout true multiview
                             temp loss_type interp partial) in
   let decoder := if partial then PartialCRF (num_labels self) true
                  else CRF (num_labels self) true in
   crf self = Some decoder
   /\ decode self logits mask = Ok (squeeze0 (crf_decode decoder logits mask)))
  /\
  (let self := train mode (init id_to_label enc word_dropout false multiview
                             temp loss_type interp partial) in
   crf self = None
   /\ decode self logits mask = Ok (of_long2 (argmax_last2 logits))
   /\ argmax_last2 logits = argmax_last2 (softmax logits)
   /\ Forall2 (Forall2 (fun v label =>
                 label = Z.of_nat (argmax1 v)
                 /\ (v <> [] -> is_first_max v (argmax1 v))))
        logits (argmax_last2 logits)).
Proof.
  split.
  - intros self. subst self. unfold_model. simpl.
    destruct partial; split; reflexivity.
  - intros self. subst self. unfold_model. simpl.
    split; [reflexivity|]. split; [reflexivity|].
    split; [now rewrite argmax_last2_softmax|].
    unfold argmax_last2.
    induction logits as [|row t IH]; simpl; constructor; [|assumption].
    clear IH. induction row as [|v row IH]; simpl; constructor; [|assumption].
    split; [reflexivity|]. apply argmax1_spec.
Qed.

(** *** The consistency loss *)

Lemma at2_map {A B : Type} (f : A -> B) (t : list (list A)) (b s : nat) :
  at2 (map (map f) t) b s = f <$> at2 t b s.
Proof.
  unfold at2. rewrite lookup_map.
  destruct (t !! b) as [row|]; simpl; [|reflexivity].
  apply lookup_map.
Qed.

Lemma at2_zip_with {A B C : Type} (f : A -> B -> C)
    (t : list (list A)) (u : list (list B)) (b s : nat) :
  at2 (zip_with (zip_with f) t u) b s =
    at2 t b s ≫= fun x => at2 u b s ≫= fun y => Some (f x y).
Proof.
  unfold at2. rewrite lookup_zip_with.
  destruct (t !! b) as [trow|]; simpl; [|reflexivity].
  destruct (u !! b) as [urow|]; simpl.
  - rewrite lookup_zip_with. reflexivity.
  - now destruct (trow !! s).
Qed.

(** The tensor whose sum [_calculate_cl_loss] takes for the loss type 'kl'. *)
Lemma at3_kl_terms (ext origin : Tensor3) mask (T : R) (b s c : nat) :
  at3 (mul_scalar
         (mul_scalar
            (mul_mask_unsqueeze
               (kl_div (log_softmax (div_scalar origin T))
                       (softmax (div_scalar (detach ext) T)))
               mask) T) T) b s c
  = at2 origin b s ≫= fun ov =>
    at2 ext b s ≫= fun ev =>
    at2 mask b s ≫= fun m =>
    ov !! c ≫= fun y =>
    ev !! c ≫= fun x =>
    let q := y / T - ln (sum1 (map (fun z => exp (z / T)) ov)) in
    let p := exp (x / T) / sum1 (map (fun z => exp (z / T)) ev) in
    Some (p * (ln p - q) * b2r m * (T * T)).
Proof.
  unfold at3, mul_scalar, mul_mask_unsqueeze, kl_div, log_softmax, softmax,
    div_scalar, detach.
  rewrite !at2_map, at2_zip_with, at2_zip_with, !at2_map.
  destruct (at2 origin b s) as [ov|]; simpl; [|reflexivity].
  destruct (at2 ext b s) as [ev|]; simpl; [|reflexivity].
  destruct (at2 mask b s) as [m|]; simpl; [|reflexivity].
  rewrite !lookup_map, lookup_zip_with.
  unfold log_softmax1, softmax1. rewrite !lookup_map, !map_map.
  destruct (ov !! c) as [y|]; simpl; [|reflexivity].
  destruct (ev !! c) as [x|]; simpl; [|reflexivity].
  unfold kl_point. f_equal. ring.
Qed.

Lemma _calculate_cl_loss_kl id_to_label enc word_dropout use_crf
    temp interp partial mode
    (ext_view_logits origin_view_logits : Tensor3) mask (T : R) :
  let self := train mode (init id_to_label enc word_dropout use_crf true
                            temp "kl" interp partial) in
  exists terms : Tensor3,
    _calculate_cl_loss self ext_view_logits origin_view_logits mask T
      = Ok (sum3 terms / INR (length ext_view_logits))
    /\ forall b s c,
         at3 terms b s c =
           at2 origin_view_logits b s ≫= fun ov =>
           at2 ext_view_logits b s ≫= fun ev =>
           at2 mask b s ≫= fun m =>
           ov !! c ≫= fun y =>
           ev !! c ≫= fun x =>
           let q := y / T - ln (sum1 (map (fun z => exp (z / T)) ov)) in
           let p := exp (x / T) / sum1 (map (fun z => exp (z / T)) ev) in
           Some (p * (ln p - q) * b2r m * (T * T)).
Proof.
  intros self. subst self. unfold_model. simpl.
  eexists. split; [reflexivity|].
  intros b s c. apply at3_kl_terms.
Qed.

(** *** The training and inference paths of [forward] *)

Lemma _calculate_loss_init_ok id_to_label enc word_dropout use_crf multiview
    temp loss_type interp partial mode logits targets mask :
  let self := train mode (init id_to_label enc word_dropout use_crf multiview
                            temp loss_type interp partial) in
  exists loss, _calculate_loss self logits (Some targets) mask = Ok loss.
Proof.
  intros self. subst self. unfold_model. simpl.
  destruct use_crf; [destruct partial|]; eexists; reflexivity.
Qed.

Lemma _calculate_loss_init_None id_to_label enc word_dropout use_crf multiview
    temp loss_type interp partial mode logits mask :
  let self := train mode (init id_to_label enc word_dropout use_crf multiview
                            temp loss_type interp partial) in
  _calculate_loss self logits None mask = Raise TypeError.
Proof.
  intros self. subst self. unfold_model. simpl.
  destruct use_crf; reflexivity.
Qed.

Lemma _calculate_cl_loss_init_ok id_to_label enc word_dropout use_crf
    temp loss_type interp partial mode
    (ext origin : Tensor3) mask (T : R) :
  loss_type = "kl" \/ (loss_type = "crf_kl" /\ use_crf = true) ->
  let self := train mode (init id_to_label enc word_dropout use_crf true
                            temp loss_type interp partial) in
  exists loss, _calculate_cl_loss self ext origin mask T = Ok loss.
Proof.
  intros [->|[-> ->]] self; subst self; unfold_model; simpl.
  - eexists; reflexivity.
  - destruct partial; eexists; reflexivity.
Qed.

Lemma _calculate_cl_loss_crf_kl_without_crf id_to_label enc word_dropout
    temp interp partial mode
    (ext origin : Tensor3) mask (T : R) :
  let self := train mode (init id_to_label enc word_dropout false true
                            temp "crf_kl" interp partial) in
  _calculate_cl_loss self ext origin mask T = Raise NotImplementedError.
Proof. reflexivity. Qed.

(** The steps of [forward], for any model object. *)

Section ForwardSteps.

Variables (self : SequenceLabelingModel Tokens Rng) (tokens : Tokens)
  (label_ids : option LongTensor2) (meta : option Meta)
  (origin_mask : option BoolTensor2) (rng r1 : Rng) (logits : Tensor3).

Hypothesis Hfwd : _forward self tokens rng = Ok (logits, r1).

#[local] Abbreviation mask := (get_tokens_mask tokens (size1 logits)).
#[local] Abbreviation crf_mask :=
  (match origin_mask with Some om => om | None => mask end).

Lemma forward_inference (origin_tokens : option Tokens) (predicts : LongTensor) :
  training self = false ->
  decode self logits mask = Ok predicts ->
  fwd self tokens label_ids meta origin_tokens origin_mask rng
  = Ok (outputs_inference logits predicts, r1).
Proof.
  intros Hmode Hdec. unfold forward, Fwd.bind, Fwd.lift, Fwd.ret.
  rewrite Hfwd; simpl. rewrite Hmode, Hdec. reflexivity.
Qed.

Lemma forward_training_loss_raises (origin_tokens : option Tokens) (e : exn) :
  training self = true ->
  _calculate_loss self logits label_ids crf_mask = Raise e ->
  fwd self tokens label_ids meta origin_tokens origin_mask rng = Raise e.
Proof.
  intros Hmode Hloss. unfold forward, Fwd.bind, Fwd.lift, Fwd.ret.
  rewrite Hfwd; simpl. rewrite Hmode, Hloss. reflexivity.
Qed.

Lemma forward_training_single_view (origin_tokens : option Tokens) (loss : R) :
  training self = true ->
  _calculate_loss self logits label_ids crf_mask = Ok loss ->
  (if multiview self then origin_tokens else None) = None ->
  fwd self tokens label_ids meta origin_tokens origin_mask rng
  = Ok (outputs_training logits loss, r1).
Proof.
  intros Hmode Hloss Hview. unfold forward, Fwd.bind, Fwd.lift, Fwd.ret.
  rewrite Hfwd; simpl. rewrite Hmode, Hloss; simpl. rewrite Hview. reflexivity.
Qed.

Lemma forward_training_two_views (origin_tokens : Tokens) (loss : R)
    (origin_view_logits : Tensor3) (r2 : Rng) (origin_view_loss : R) :
  training self = true ->
  _calculate_loss self logits label_ids crf_mask = Ok loss ->
  multiview self = true ->
  _forward self origin_tokens r1 = Ok (origin_view_logits, r2) ->
  _calculate_loss self origin_view_logits label_ids
    (get_tokens_mask origin_tokens (size1 origin_view_logits))
  = Ok origin_view_loss ->
  fwd self tokens label_ids meta (Some origin_tokens) origin_mask rng
  = if String.eqb (mv_loss_type self) "kl" || String.eqb (mv_loss_type self) "crf_kl"
    then
      match _calculate_cl_loss self logits origin_view_logits mask (temperature self) with
      | inl e => Raise e
      | inr cl_kl_loss =>
          Ok (outputs_training logits
                (mv_interpolation self * (loss + origin_view_loss)
                 + (1 - mv_interpolation self) * cl_kl_loss), r2)
      end
    else Ok (outputs_training logits loss, r2).
Proof.
  intros Hmode Hloss Hmv Hofwd Holoss.
  unfold forward, Fwd.bind, Fwd.lift, Fwd.ret.
  rewrite Hfwd; simpl. rewrite Hmode, Hloss, Hmv; simpl.
  rewrite Hofwd; simpl. rewrite Holoss; simpl.
  destruct (String.eqb (mv_loss_type self) "kl"); simpl.
  - destruct (_calculate_cl_loss _ _ _ _ _); reflexivity.
  - destruct (String.eqb (mv_loss_type self) "crf_kl"); simpl; [|reflexivity].
    destruct (_calculate_cl_loss _ _ _ _ _); reflexivity.
Qed.

End ForwardSteps.

(** C10.  A training-mode call with multiview enabled, origin tokens given,
    the loss type 'crf_kl' and [use_crf] false raises
    [NotImplementedError]. *)
Theorem crf_kl_without_crf_raises id_to_label enc word_dropout
    temp interp partial tokens label_ids (meta : option Meta)
    (origin_tokens : Tokens) (origin_mask : option BoolTensor2) rng :
  fwd (train true (init id_to_label enc word_dropout false true
                     temp "crf_kl" interp partial))
    tokens (Some label_ids) meta (Some origin_tokens) origin_mask rng
  = Raise NotImplementedError.
Proof.
  set (self := train true (init id_to_label enc word_dropout false true
                             temp "crf_kl" interp partial)).
  destruct (_forward_init_ok id_to_label enc word_dropout false true
              temp "crf_kl" interp partial true tokens rng)
    as (embed & r1 & Hfwd).
  destruct (_forward_init_ok id_to_label enc word_dropout false true
              temp "crf_kl" interp partial true origin_tokens r1)
    as (oembed & r2 & Hofwd).
  fold self in Hfwd, Hofwd.
  set (logits := Linear.call (linear self) embed) in *.
  set (ologits := Linear.call (linear self) oembed) in *.
  destruct (_calculate_loss_init_ok id_to_label enc word_dropout false true
              temp "crf_kl" interp partial true logits label_ids
              (match origin_mask with
               | Some om => om
               | None => get_tokens_mask tokens (size1 logits)
               end)) as (loss & Hloss).
  destruct (_calculate_loss_init_ok id_to_label enc word_dropout false true
              temp "crf_kl" interp partial true ologits label_ids
              (get_tokens_mask origin_tokens (size1 ologits))) as (oloss & Holoss).
  fold self in Hloss, Holoss.
  rewrite (forward_training_two_views self tokens (Some label_ids) meta
             origin_mask rng r1 logits Hfwd origin_tokens loss ologits r2 oloss
             eq_refl Hloss eq_refl Hofwd Holoss).
  reflexivity.
Qed.




Lemma decode_init_ok id_to_label enc word_dropout use_crf multiview
    temp loss_type interp partial mode logits mask :
  let self := train mode (init id_to_label enc word_dropout use_crf multiview
                            temp loss_type interp partial) in
  exists predicts, decode self logits mask = Ok predicts.
Proof.
  intros self. subst self. unfold_model. simpl.
  destruct use_crf; [destruct partial|]; eexists; reflexivity.
Qed.

Lemma outputs_training_keys (logits : Tensor3) (loss : R) :
  is_Some (outputs_training logits loss !! "logits")
  /\ is_Some (outputs_training logits loss !! "loss")
  /\ outputs_training logits loss !! "predicts" = None.
Proof.
  unfold outputs_training. split; [|split].
  - rewrite lookup_insert_ne by discriminate. rewrite lookup_insert_eq. eauto.
  - rewrite lookup_insert_eq. eauto.
  - rewrite !lookup_insert_ne by discriminate. apply lookup_empty.
Qed.

Lemma outputs_inference_keys (logits : Tensor3) (predicts : LongTensor) :
  is_Some (outputs_inference logits predicts !! "logits")
  /\ is_Some (outputs_inference logits predicts !! "predicts")
  /\ outputs_inference logits predicts !! "loss" = None.
Proof.
  unfold outputs_inference. split; [|split].
  - rewrite lookup_insert_ne by discriminate. rewrite lookup_insert_eq. eauto.
  - rewrite lookup_insert_eq. eauto.
  - rewrite !lookup_insert_ne by discriminate. apply lookup_empty.
Qed.

(** What a dictionary must hold in the given mode. *)
Lemma training_keys_by_mode (logits : Tensor3) (loss : R) :
  is_Some (outputs_training logits loss !! "logits")
  /\ (is_Some (outputs_training logits loss !! "loss") <-> true = true)
  /\ (is_Some (outputs_training logits loss !! "predicts") <-> true = false).
Proof.
  destruct (outputs_training_keys logits loss) as (Hl & Hs & Hp).
  rewrite Hp. repeat split; auto; try discriminate.
  intros [x Hx]; discriminate.
Qed.

Lemma inference_keys_by_mode (logits : Tensor3) (predicts : LongTensor) :
  is_Some (outputs_inference logits predicts !! "logits")
  /\ (is_Some (outputs_inference logits predicts !! "loss") <-> false = true)
  /\ (is_Some (outputs_inference logits predicts !! "predicts") <-> false = false).
Proof.
  destruct (outputs_inference_keys logits predicts) as (Hl & Hp & Hs).
  rewrite Hs. repeat split; auto; try discriminate.
  intros [x Hx]; discriminate.
Qed.

(** C3.  Whenever [forward] returns, the dictionary holds 'logits', holds
    'loss' exactly when the model is in training mode and holds 'predicts'
    exactly when it is not.  In inference mode it always returns; in
    training mode it returns unless the label ids are missing or the loss
    type 'crf_kl' meets a model without CRF on a two-view step. *)
Theorem forward_outputs_by_mode id_to_label enc word_dropout use_crf multiview
    temp loss_type interp partial mode tokens (label_ids : option LongTensor2)
    (meta : option Meta) (origin_tokens : option Tokens)
    (origin_mask : option BoolTensor2) rng :
  match fwd (train mode (init id_to_label enc word_dropout use_crf multiview
                           temp loss_type interp partial))
          tokens label_ids meta origin_tokens origin_mask rng with
  | inr (outputs, _) =>
      is_Some (outputs !! "logits")
      /\ (is_Some (outputs !! "loss") <-> mode = true)
      /\ (is_Some (outputs !! "predicts") <-> mode = false)
  | inl e =>
      mode = true
      /\ ((label_ids = None /\ e = TypeError)
          \/ (is_Some label_ids /\ multiview = true /\ is_Some origin_tokens
              /\ loss_type = "crf_kl" /\ use_crf = false
              /\ e = NotImplementedError))
  end.
Proof.
  set (self := train mode (init id_to_label enc word_dropout use_crf multiview
                             temp loss_type interp partial)).
  destruct (_forward_init_ok id_to_label enc word_dropout use_crf multiview
              temp loss_type interp partial mode tokens rng)
    as (embed & r1 & Hfwd).
  fold self in Hfwd.
  set (logits := Linear.call (linear self) embed) in *.
  destruct mode.
  - (* training *)
    destruct label_ids as [label_ids|].
    2:{ rewrite (forward_training_loss_raises self tokens None meta origin_mask
                   rng r1 logits Hfwd origin_tokens TypeError eq_refl).
        - split; [reflexivity|]. left. split; reflexivity.
        - apply _calculate_loss_init_None. }
    destruct (_calculate_loss_init_ok id_to_label enc word_dropout use_crf multiview
                temp loss_type interp partial true logits label_ids
                (match origin_mask with
                 | Some om => om
                 | None => get_tokens_mask tokens (size1 logits)
                 end)) as (loss & Hloss).
    fold self in Hloss.
    destruct (if multiview then origin_tokens else None) as [ot|] eqn:Hview.
    2:{ rewrite (forward_training_single_view self tokens (Some label_ids) meta
                   origin_mask rng r1 logits Hfwd origin_tokens loss eq_refl Hloss Hview).
        apply training_keys_by_mode. }
    destruct multiview; [|discriminate]. subst origin_tokens.
    destruct (_forward_init_ok id_to_label enc word_dropout use_crf true
                temp loss_type interp partial true ot r1)
      as (oembed & r2 & Hofwd).
    fold self in Hofwd.
    set (ologits := Linear.call (linear self) oembed) in *.
    destruct (_calculate_loss_init_ok id_to_label enc word_dropout use_crf true
                temp loss_type interp partial true ologits label_ids
                (get_tokens_mask ot (size1 ologits))) as (oloss & Holoss).
    fold self in Holoss.
    rewrite (forward_training_two_views self tokens (Some label_ids) meta
               origin_mask rng r1 logits Hfwd ot loss ologits r2 oloss
               eq_refl Hloss eq_refl Hofwd Holoss).
    change (mv_loss_type self) with loss_type.
    change (temperature self) with temp.
    destruct (String.eqb_spec loss_type "kl") as [Hkl|Hkl]; simpl.
    { destruct (_calculate_cl_loss_init_ok id_to_label enc word_dropout use_crf
                  temp loss_type interp partial true logits ologits
                  (get_tokens_mask tokens (size1 logits)) temp (or_introl Hkl))
        as (cl & Hcl).
      fold self in Hcl. rewrite Hcl. apply training_keys_by_mode. }
    destruct (String.eqb_spec loss_type "crf_kl") as [Hck|Hck]; simpl.
    2:{ apply training_keys_by_mode. }
    destruct use_crf.
    + destruct (_calculate_cl_loss_init_ok id_to_label enc word_dropout true
                  temp loss_type interp partial true logits ologits
                  (get_tokens_mask tokens (size1 logits)) temp
                  (or_intror (conj Hck eq_refl)))
        as (cl & Hcl).
      fold self in Hcl. rewrite Hcl. apply training_keys_by_mode.
    + subst loss_type.
      pose proof (_calculate_cl_loss_crf_kl_without_crf id_to_label enc
                    word_dropout temp interp partial true logits ologits
                    (get_tokens_mask tokens (size1 logits)) temp) as Hcl.
      fold self in Hcl. rewrite Hcl.
      split; [reflexivity|]. right. repeat split; eauto.
  - (* inference *)
    destruct (decode_init_ok id_to_label enc word_dropout use_crf multiview
                temp loss_type interp partial false logits
                (get_tokens_mask tokens (size1 logits))) as (predicts & Hdec).
    fold self in Hdec.
    rewrite (forward_inference self tokens label_ids meta origin_mask rng r1
               logits Hfwd origin_tokens predicts eq_refl Hdec).
    apply inference_keys_by_mode.
Qed.


(** C5.  In a two-view training step with the loss type 'kl', the
    consistency loss that enters the returned loss is the sum over all
    entries of a tensor, divided by the batch size.  The entry of that
    tensor at batch item [b], token [s] and label [c] is [p * (ln p - q)],
    the pointwise KL divergence of [q], the temperature-[T] log-softmax of
    the origin view's logits, from [p], the temperature-[T] softmax of the
    augmented view's logits (the target), times the mask entry of token
    [(b, s)], times [T * T], where [T] is the model's temperature. *)
Theorem consistency_loss_is_masked_kl id_to_label enc word_dropout use_crf
    temp interp partial tokens label_ids (meta : option Meta)
    (origin_tokens : Tokens) (origin_mask : option BoolTensor2) rng :
  let self := train true (init id_to_label enc word_dropout use_crf true
                            temp "kl" interp partial) in
  exists logits r1 origin_view_logits r2 (terms : Tensor3) cl_kl_loss,
    _forward self tokens rng = Ok (logits, r1)
    /\ _forward self origin_tokens r1 = Ok (origin_view_logits, r2)
    /\ _calculate_cl_loss self logits origin_view_logits
         (get_tokens_mask tokens (size1 logits)) temp = Ok cl_kl_loss
    /\ cl_kl_loss = sum1 (concat (concat terms)) / INR (length logits)
    /\ (forall b s c,
          at3 terms b s c =
            at2 origin_view_logits b s ≫= fun ov =>
            at2 logits b s ≫= fun ev =>
            at2 (get_tokens_mask tokens (size1 logits)) b s ≫= fun m =>
            ov !! c ≫= fun y =>
            ev !! c ≫= fun x =>
            let q := y / temp - ln (sum1 (map (fun z => exp (z / temp)) ov)) in
            let p := exp (x / temp) / sum1 (map (fun z => exp (z / temp)) ev) in
            Some (p * (ln p - q) * b2r m * (temp * temp)))
    /\ exists loss origin_view_loss,
         fwd self tokens (Some label_ids) meta (Some origin_tokens) origin_mask rng
         = Ok (outputs_training logits
                 (interp * (loss + origin_view_loss)
                  + (1 - interp) * cl_kl_loss), r2).
Proof.
  intros self.
  destruct (_forward_init_ok id_to_label enc word_dropout use_crf true
              temp "kl" interp partial true tokens rng)
    as (embed & r1 & Hfwd).
  destruct (_forward_init_ok id_to_label enc word_dropout use_crf true
              temp "kl" interp partial true origin_tokens r1)
    as (oembed & r2 & Hofwd).
  fold self in Hfwd, Hofwd.
  set (logits := Linear.call (linear self) embed) in *.
  set (ologits := Linear.call (linear self) oembed) in *.
  destruct (_calculate_loss_init_ok id_to_label enc word_dropout use_crf true
              temp "kl" interp partial true logits label_ids
              (match origin_mask with
               | Some om => om
               | None => get_tokens_mask tokens (size1 logits)
               end)) as (loss & Hloss).
  destruct (_calculate_loss_init_ok id_to_label enc word_dropout use_crf true
              temp "kl" interp partial true ologits label_ids
              (get_tokens_mask origin_tokens (size1 ologits))) as (oloss & Holoss).
  destruct (_calculate_cl_loss_kl id_to_label enc word_dropout use_crf
              temp interp partial true logits ologits
              (get_tokens_mask tokens (size1 logits)) temp)
    as (terms & Hcl & Hterms).
  fold self in Hloss, Holoss, Hcl.
  exists logits, r1, ologits, r2, terms, (sum3 terms / INR (length logits)).
  repeat (split; [assumption || reflexivity|]).
  exists loss, oloss.
  rewrite (forward_training_two_views self tokens (Some label_ids) meta
             origin_mask rng r1 logits Hfwd origin_tokens loss ologits r2 oloss
             eq_refl Hloss eq_refl Hofwd Holoss).
  change (temperature self) with temp. rewrite Hcl. reflexivity.
Qed.

(** *** Further properties of the consistency loss *)

Lemma at2_kl_terms (origin ext : Tensor3) mask (T : R) (b s : nat) :
  at2 (kl_terms origin ext mask T) b s
  = at2 origin b s ≫= fun ov =>
    at2 ext b s ≫= fun ev =>
    at2 mask b s ≫= fun m =>
    Some (map (fun x => x * T)
            (map (fun x => x * T)
               (map (fun x => x * b2r m)
                  (zip_with kl_point
                     (log_softmax1 (map (fun x => x / T) ov))
                     (softmax1 (map (fun x => x / T) ev)))))).
Proof.
  unfold kl_terms, mul_scalar, mul_mask_unsqueeze, kl_div, log_softmax, softmax,
    div_scalar.
  rewrite !at2_map, at2_zip_with, at2_zip_with, !at2_map.
  destruct (at2 origin b s) as [ov|]; simpl; [|reflexivity].
  destruct (at2 ext b s) as [ev|]; simpl; [|reflexivity].
  destruct (at2 mask b s) as [m|]; reflexivity.
Qed.

Lemma _calculate_cl_loss_kl_eq id_to_label enc word_dropout use_crf
    temp interp partial mode (ext origin : Tensor3) mask (T : R) :
  _calculate_cl_loss
    (train mode (init id_to_label enc word_dropout use_crf true
                   temp "kl" interp partial)) ext origin mask T
  = Ok (sum3 (kl_terms origin ext mask T) / INR (length ext)).
Proof. reflexivity. Qed.

Lemma _calculate_cl_loss_crf_kl_eq id_to_label enc word_dropout
    temp interp partial mode (ext origin : Tensor3) mask (T : R) :
  let self := train mode (init id_to_label enc word_dropout true true
                            temp "crf_kl" interp partial) in
  let decoder := if partial then PartialCRF (size id_to_label) true
                 else CRF (size id_to_label) true in
  _calculate_cl_loss self ext origin mask T
  = Ok (sum3 (kl_terms (crf_compute_posterior decoder origin mask)
                       (crf_compute_posterior decoder ext mask) mask T)
        / INR (length ext)).
Proof. destruct partial; reflexivity. Qed.

Lemma kl_terms_masked_zero (origin ext : Tensor3) mask (T : R) :
  Forall (Forall (fun m => m = false)) mask ->
  sum3 (kl_terms origin ext mask T) = 0.
Proof.
  intros Hmask. apply sum3_zero. intros b s c x. unfold at3.
  rewrite at2_kl_terms.
  destruct (at2 origin b s) as [ov|]; simpl; [|discriminate].
  destruct (at2 ext b s) as [ev|]; simpl; [|discriminate].
  destruct (at2 mask b s) as [m|] eqn:Hm; simpl; [|discriminate].
  assert (m = false) as ->.
  { unfold at2 in Hm. destruct (mask !! b) as [row|] eqn:Hrow; [|discriminate].
    simpl in Hm.
    exact (Forall_lookup_1 _ _ _ _ (Forall_lookup_1 _ _ _ _ Hmask Hrow) Hm). }
  rewrite !lookup_map.
  destruct (zip_with _ _ _ !! c) as [k|]; simpl; [|discriminate].
  intros [= <-]. ring.
Qed.


(** X9.  When the mask is false at every token, the consistency loss of a
    non-empty batch is 0, for the loss type 'kl' and for 'crf_kl' on a
    model with CRF: masked tokens add nothing to it. *)
Theorem consistency_loss_zero_when_all_masked id_to_label enc word_dropout
    use_crf temp loss_type interp partial mode (ext origin : Tensor3) mask (T : R) :
  loss_type = "kl" \/ (loss_type = "crf_kl" /\ use_crf = true) ->
  ext <> [] ->
  T <> 0 ->
  Forall (Forall (fun m => m = false)) mask ->
  _calculate_cl_loss
    (train mode (init id_to_label enc word_dropout use_crf true
                   temp loss_type interp partial)) ext origin mask T
  = Ok 0.
Proof.
  intros [->|[-> ->]] _ _ Hmask.
  - rewrite _calculate_cl_loss_kl_eq, kl_terms_masked_zero by assumption.
    unfold Ok. do 2 f_equal. apply Rdiv_0_l.
  - rewrite _calculate_cl_loss_crf_kl_eq, kl_terms_masked_zero by assumption.
    unfold Ok. do 2 f_equal. apply Rdiv_0_l.
Qed.

(** X12.  For the loss type 'crf_kl' on a model with CRF, the consistency
    loss is the sum of a tensor over the batch size of the logits, and the
    entries of that tensor are the masked, [T * T]-scaled pointwise KL
    terms of the CRF posteriors of the two views (the posterior of the
    first argument is the target). *)
Theorem consistency_loss_crf_kl_on_posteriors id_to_label enc word_dropout
    temp interp partial mode (ext origin : Tensor3) mask (T : R) :
  let self := train mode (init id_to_label enc word_dropout true true
                            temp "crf_kl" interp partial) in
  exists decoder (terms : Tensor3),
    crf self = Some decoder
    /\ _calculate_cl_loss self ext origin mask T
       = Ok (sum3 terms / INR (length ext))
    /\ forall b s c,
         at3 terms b s c =
           at2 (crf_compute_posterior decoder origin mask) b s ≫= fun ov =>
           at2 (crf_compute_posterior decoder ext mask) b s ≫= fun ev =>
           at2 mask b s ≫= fun m =>
           ov !! c ≫= fun y =>
           ev !! c ≫= fun x =>
           let q := y / T - ln (sum1 (map (fun z => exp (z / T)) ov)) in
           let p := exp (x / T) / sum1 (map (fun z => exp (z / T)) ev) in
           Some (p * (ln p - q) * b2r m * (T * T)).
Proof.
  intros self.
  exists (if partial then PartialCRF (size id_to_label) true
          else CRF (size id_to_label) true).
  eexists. split; [subst self; now destruct partial|].
  split; [apply _calculate_cl_loss_crf_kl_eq|].
  intros b s c. apply (at3_kl_terms _ _ mask T b s c).
Qed.


(** *** What [forward] and the primary loss do not depend on *)



(** X3.  Without CRF the mask plays no part in the primary loss, so a
    training step of such a model returns the same result whatever
    [origin_mask] is passed. *)
Theorem origin_mask_unused_without_crf id_to_label enc word_dropout
    multiview temp loss_type interp partial mode tokens
    (label_ids : option LongTensor2) (meta : option Meta)
    (origin_tokens : option Tokens) (origin_mask : option BoolTensor2) rng :
  let self := train mode (init id_to_label enc word_dropout false multiview
                            temp loss_type interp partial) in
  (forall logits mask mask',
     _calculate_loss self logits label_ids mask
     = _calculate_loss self logits label_ids mask')
  /\ fwd self tokens label_ids meta origin_tokens origin_mask rng
     = fwd self tokens label_ids meta origin_tokens None rng.
Proof.
  intros self. split; [reflexivity|].
  subst self. unfold forward, Fwd.bind.
  destruct (_forward _ tokens rng) as [e|[logits r1]]; [reflexivity|].
  simpl. destruct mode; reflexivity.
Qed.



(** *** The attributes of a constructed model *)

(** [forward] raises nothing of its own: an exception that none of its
    steps raises does not come out of it. *)
Lemma forward_raises_what_its_steps_raise
    (self : SequenceLabelingModel Tokens Rng) (e : exn) tokens
    (label_ids : option LongTensor2) (meta : option Meta)
    (origin_tokens : option Tokens) (origin_mask : option BoolTensor2) rng :
  (forall tokens rng, _forward self tokens rng <> Raise e) ->
  (forall logits (targets : option LongTensor2) mask,
     _calculate_loss self logits targets mask <> Raise e) ->
  (forall (ext origin : Tensor3) mask (T : R),
     _calculate_cl_loss self ext origin mask T <> Raise e) ->
  (forall logits mask, decode self logits mask <> Raise e) ->
  fwd self tokens label_ids meta origin_tokens origin_mask rng <> Raise e.
Proof.
  intros Hfwd Hloss Hcl Hdec.
  unfold forward, Fwd.bind, Fwd.lift, Fwd.ret, Raise, not in *.
  destruct (_forward self tokens rng) as [e1|[logits r1]] eqn:H1.
  { intros [= ->]. now apply (Hfwd tokens rng). }
  simpl. destruct (training self).
  2:{ destruct (decode self logits _) as [e1|p] eqn:H2; [|simpl; discriminate].
      simpl; intros [= ->]. now apply (Hdec _ _ H2). }
  destruct (_calculate_loss self logits label_ids _) as [e1|loss] eqn:H2.
  { simpl; intros [= ->]. now apply (Hloss _ _ _ H2). }
  simpl.
  destruct (if multiview self then origin_tokens else None)
    as [ot|]; [|simpl; discriminate].
  destruct (_forward self ot r1) as [e1|[ologits r2]] eqn:H3.
  { simpl; intros [= ->]. now apply (Hfwd ot r1). }
  simpl.
  destruct (_calculate_loss self ologits label_ids _) as [e1|oloss] eqn:H4.
  { simpl; intros [= ->]. now apply (Hloss _ _ _ H4). }
  simpl.
  destruct (String.eqb (mv_loss_type self) "kl").
  { destruct (_calculate_cl_loss self logits ologits _ _) as [e1|cl] eqn:H5;
      [|simpl; discriminate].
    simpl; intros [= ->]. now apply (Hcl _ _ _ _ H5). }
  destruct (String.eqb (mv_loss_type self) "crf_kl"); [|simpl; discriminate].
  destruct (_calculate_cl_loss self logits ologits _ _) as [e1|cl] eqn:H5;
    [|simpl; discriminate].
  simpl; intros [= ->]. now apply (Hcl _ _ _ _ H5).
Qed.

(** X5.  [__init__] stores a CRF exactly when [use_crf] is set, a
    cross-entropy criterion exactly when it is not, and a dropout module
    exactly when the rate is positive; [train] keeps this.  Hence no
    method of a constructed model fails on a missing attribute. *)
Theorem constructed_model_attributes id_to_label enc word_dropout use_crf
    multiview temp loss_type interp partial mode :
  let self := train mode (init id_to_label enc word_dropout use_crf multiview
                            temp loss_type interp partial) in
  (is_Some (crf self) <-> use_crf = true)
  /\ (is_Some (loss_fn self) <-> use_crf = false)
  /\ (is_Some (dropout self) <-> 0 < word_dropout)
  /\ (forall tokens rng, _forward self tokens rng <> Raise AttributeError)
  /\ (forall logits (targets : option LongTensor2) mask,
        _calculate_loss self logits targets mask <> Raise AttributeError)
  /\ (forall (ext origin : Tensor3) mask (T : R),
        _calculate_cl_loss self ext origin mask T <> Raise AttributeError)
  /\ (forall logits mask, decode self logits mask <> Raise AttributeError)
  /\ (forall tokens (label_ids : option LongTensor2) (meta : option Meta)
        (origin_tokens : option Tokens) (origin_mask : option BoolTensor2) rng,
        fwd self tokens label_ids meta origin_tokens origin_mask rng
        <> Raise AttributeError).
Proof.
  intros self.
  assert (Hfwd : forall tokens rng, _forward self tokens rng <> Raise AttributeError).
  { intros tokens rng.
    destruct (_forward_init_ok id_to_label enc word_dropout use_crf multiview
                temp loss_type interp partial mode tokens rng)
      as (embed & r1 & H).
    fold self in H. rewrite H. discriminate. }
  assert (Hloss : forall logits (targets : option LongTensor2) mask,
             _calculate_loss self logits targets mask <> Raise AttributeError).
  { intros logits [targets|] mask.
    - destruct (_calculate_loss_init_ok id_to_label enc word_dropout use_crf
                  multiview temp loss_type interp partial mode logits targets mask)
        as (loss & H).
      fold self in H. rewrite H. discriminate.
    - subst self. rewrite _calculate_loss_init_None. discriminate. }
  assert (Hcl : forall (ext origin : Tensor3) mask (T : R),
             _calculate_cl_loss self ext origin mask T <> Raise AttributeError).
  { intros ext origin mask T. subst self. unfold_model. simpl.
    destruct multiview; simpl; [|discriminate].
    destruct (String.eqb loss_type "kl"); simpl; [discriminate|].
    destruct (String.eqb loss_type "crf_kl"); simpl; [|discriminate].
    destruct use_crf; simpl; [destruct partial|]; discriminate. }
  assert (Hdec : forall logits mask, decode self logits mask <> Raise AttributeError).
  { intros logits mask.
    destruct (decode_init_ok id_to_label enc word_dropout use_crf multiview
                temp loss_type interp partial mode logits mask) as (p & H).
    fold self in H. rewrite H. discriminate. }
  split; [|split; [|split]].
  - subst self; simpl. destruct use_crf; [destruct partial|]; simpl;
      split; eauto; try discriminate; intros [x Hx]; discriminate.
  - subst self; simpl. destruct use_crf; simpl;
      split; eauto; try discriminate; intros [x Hx]; discriminate.
  - subst self; simpl. case_bool_decide; split; eauto; try contradiction.
    intros [x Hx]; discriminate.
  - repeat (split; [assumption|]).
    intros tokens label_ids meta origin_tokens origin_mask rng.
    now apply forward_raises_what_its_steps_raise.
Qed.


(** *** Labels handed to the CRF, labels decoded by argmax *)

Lemma mul_mask_row_ext (r r' : list Z) (mr : list bool) :
  length r = length r' ->
  (forall s, mr !! s = Some true -> r !! s = r' !! s) ->
  zip_with (fun t m => (t * b2z m)%Z) r mr
  = zip_with (fun t m => (t * b2z m)%Z) r' mr.
Proof.
  revert r' mr. induction r as [|x r IH]; intros [|x' r'] mr Hlen H;
    try discriminate; [reflexivity|].
  destruct mr as [|m mr]; [reflexivity|]. simpl. f_equal.
  - destruct m; simpl; [|lia].
    specialize (H 0%nat eq_refl). simpl in H. injection H as ->. reflexivity.
  - apply IH; [simpl in Hlen; lia|].
    intros s Hs. exact (H (S s) Hs).
Qed.

Lemma mul_mask_ext targets targets' mask :
  Forall2 (fun r r' => length r = length r') targets targets' ->
  (forall b s, at2 mask b s = Some true -> at2 targets b s = at2 targets' b s) ->
  mul_mask targets mask = mul_mask targets' mask.
Proof.
  intros Hshape. revert mask.
  induction Hshape as [|r r' ts ts' Hlen _ IH]; intros mask H; [reflexivity|].
  destruct mask as [|mr mask]; [reflexivity|].
  unfold mul_mask. simpl. f_equal.
  - apply mul_mask_row_ext; [assumption|].
    intros s Hs. exact (H 0%nat s Hs).
  - apply IH. intros b s Hs. exact (H (S b) s Hs).
Qed.

(** X6.  With CRF, the label ids reach the CRF unchanged wherever the
    mask is true. *)
Theorem crf_targets_kept_where_unmasked id_to_label enc word_dropout
    multiview temp loss_type interp partial mode logits targets mask :
  let self := train mode (init id_to_label enc word_dropout true multiview
                            temp loss_type interp partial) in
  exists decoder crf_targets,
    crf self = Some decoder
    /\ _calculate_loss self logits (Some targets) mask
       = Ok (- crf_call decoder logits crf_targets "mean" mask)
    /\ forall b s label,
         at2 targets b s = Some label ->
         at2 mask b s = Some true ->
         at2 crf_targets b s = Some label.
Proof.
  intros self. subst self. unfold_model. simpl.
  exists (if partial then PartialCRF (size id_to_label) true
          else CRF (size id_to_label) true), (mul_mask targets mask).
  split; [now destruct partial|]. split; [now destruct partial|].
  intros b s label Ht Hm.
  rewrite at2_mul_mask, Ht, Hm. simpl. f_equal. lia.
Qed.

(** X7.  With CRF, the primary loss does not depend on the label ids
    stored at masked positions: two label tensors of one shape that agree
    wherever the mask is true give the same loss. *)
Theorem crf_loss_ignores_masked_labels id_to_label enc word_dropout
    multiview temp loss_type interp partial mode logits targets
    (targets' : LongTensor2) mask :
  Forall2 (fun r r' => length r = length r') targets targets' ->
  (forall b s, at2 mask b s = Some true -> at2 targets b s = at2 targets' b s) ->
  _calculate_loss
    (train mode (init id_to_label enc word_dropout true multiview
                   temp loss_type interp partial)) logits (Some targets) mask
  = _calculate_loss
      (train mode (init id_to_label enc word_dropout true multiview
                     temp loss_type interp partial)) logits (Some targets') mask.
Proof.
  intros Hshape Hagree. unfold_model. simpl.
  now rewrite (mul_mask_ext targets targets' mask Hshape Hagree).
Qed.





End Properties.

(** ** The model on explicit inputs *)

(** A training step with two views and the loss type 'crf_kl' on a model
    built without CRF returns no loss, it raises [NotImplementedError]. *)
Example two_views_crf_kl_without_crf_raises :
  Fixture.fwd
    (train true (Fixture.init Fixture.labels Fixture.enc 0 false true 1
                   "crf_kl" (1 / 2) false))
    Fixture.tokens (Some Fixture.label_ids) None (Some Fixture.origin_tokens)
    None 0%nat
  = Raise NotImplementedError
  /\ ~ exists outputs rng',
         Fixture.fwd
           (train true (Fixture.init Fixture.labels Fixture.enc 0 false true 1
                          "crf_kl" (1 / 2) false))
           Fixture.tokens (Some Fixture.label_ids) None
           (Some Fixture.origin_tokens) None 0%nat
         = Ok (outputs, rng').
Proof.
  unfold Fixture.fwd, Fixture.init.
  set (self := train true (__init__ _ _ _ _ _ _ _ _ _ _ _ _ _ _ _ _ _)).
  destruct (_forward_init_ok Fixture.Encoder_from_config Fixture.WordDropout_new
              Fixture.CRF Fixture.PartialCRF Fixture.PAD_LABEL_ID
              Fixture.CrossEntropyLoss Fixture.Linear_weight Fixture.Linear_bias
              Fixture.labels Fixture.enc 0 false true 1 "crf_kl" (1 / 2) false
              true Fixture.tokens 0%nat) as (embed & r1 & Hfwd).
  destruct (_forward_init_ok Fixture.Encoder_from_config Fixture.WordDropout_new
              Fixture.CRF Fixture.PartialCRF Fixture.PAD_LABEL_ID
              Fixture.CrossEntropyLoss Fixture.Linear_weight Fixture.Linear_bias
              Fixture.labels Fixture.enc 0 false true 1 "crf_kl" (1 / 2) false
              true Fixture.origin_tokens r1) as (oembed & r2 & Hofwd).
  fold self in Hfwd, Hofwd.
  assert (Hraise :
    forward Fixture.get_tokens_mask self Fixture.tokens (Some Fixture.label_ids)
      (None : option Fixture.Meta) (Some Fixture.origin_tokens) None 0%nat
    = Raise NotImplementedError).
  { rewrite (forward_training_two_views Fixture.get_tokens_mask self
               Fixture.tokens (Some Fixture.label_ids) None None 0%nat r1 _ Hfwd
               Fixture.origin_tokens _ _ r2 _
               eq_refl eq_refl eq_refl Hofwd eq_refl).
    reflexivity. }
  split; [exact Hraise|].
  intros (outputs & rng' & H). rewrite Hraise in H. discriminate.
Qed.


Lemma word_dropout_before_projection_witness :
  0 < 1 / 2
  /\ dropout (train true (Fixture.init Fixture.labels Fixture.enc (1 / 2) true
                            false 1 "kl" (1 / 2) false))
     = Some (Fixture.WordDropout_new (1 / 2))
  /\ _forward (train true (Fixture.init Fixture.labels Fixture.enc (1 / 2) true
                             false 1 "kl" (1 / 2) false))
       Fixture.tokens 0%nat
     = Ok (Linear.call
             (nn_Linear Fixture.Linear_weight Fixture.Linear_bias 2 3)
             (map (Fixture.drop_tokens 1%nat)
                  (Fixture.embed_tokens 2 Fixture.tokens)),
           2%nat).
Proof.
  assert (Hrate : 0 < 1 / 2) by lra.
  split; [exact Hrate|].
  exact (proj1 (word_dropout_before_projection
                  Fixture.Encoder_from_config Fixture.WordDropout_new
                  Fixture.CRF Fixture.PartialCRF Fixture.PAD_LABEL_ID
                  Fixture.CrossEntropyLoss Fixture.Linear_weight
                  Fixture.Linear_bias
                  Fixture.labels Fixture.enc (1 / 2) true false 1 "kl" (1 / 2)
                  false true Fixture.tokens 0%nat) Hrate).
Defined.

Lemma crf_targets_zero_where_masked_witness :
  at2 Fixture.label_ids 0 2 = Some (-100)%Z
  /\ at2 (Fixture.get_tokens_mask Fixture.tokens 3) 0 2 = Some false
  /\ exists decoder crf_targets,
       _calculate_loss
         (train true (Fixture.init Fixture.labels Fixture.enc 0 true false 1
                        "kl" (1 / 2) false))
         [[[1; 0; 0]; [0; 1; 0]; [0; 0; 1]]] (Some Fixture.label_ids)
         (Fixture.get_tokens_mask Fixture.tokens 3)
       = Ok (- crf_call decoder [[[1; 0; 0]; [0; 1; 0]; [0; 0; 1]]] crf_targets
                 "mean" (Fixture.get_tokens_mask Fixture.tokens 3))
       /\ at2 crf_targets 0 2 = Some 0%Z.
Proof.
  split; [reflexivity|]. split; [reflexivity|].
  destruct (crf_targets_zero_where_masked
              Fixture.Encoder_from_config Fixture.WordDropout_new
              Fixture.CRF Fixture.PartialCRF Fixture.PAD_LABEL_ID
              Fixture.CrossEntropyLoss Fixture.Linear_weight
              Fixture.Linear_bias
              Fixture.labels Fixture.enc 0 false 1 "kl" (1 / 2) false true
              [[[1; 0; 0]; [0; 1; 0]; [0; 0; 1]]] Fixture.label_ids
              (Fixture.get_tokens_mask Fixture.tokens 3))
    as (decoder & crf_targets & _ & Hloss & _ & Hzero).
  exists decoder, crf_targets. split; [exact Hloss|].
  exact (proj1 (Hzero 0%nat 2%nat (-100)%Z eq_refl eq_refl)).
Defined.


(** The decoders of the concrete instance return one best path per
    sentence under a leading dimension of size one, which [decode] drops. *)
Example decode_squeezes_single_best_path (logits : Tensor3) (mask : BoolTensor2) :
  decode (train false (Fixture.init Fixture.labels Fixture.enc 0 true false 1
                         "kl" (1 / 2) false))
    logits mask
  = Ok (argmax_last logits).
Proof. reflexivity. Qed.

(** Without labels a training step fails in the loss. *)
Example training_without_labels_raises :
  Fixture.fwd
    (train true (Fixture.init Fixture.labels Fixture.enc 0 true false 1
                   "kl" (1 / 2) false))
    Fixture.tokens None None None None 0%nat
  = Raise TypeError.
Proof.
  unfold Fixture.fwd, Fixture.init.
  edestruct (_forward_init_ok Fixture.Encoder_from_config) as (embed & r1 & Hfwd).
  eapply forward_training_loss_raises; [exact Hfwd|reflexivity..].
Qed.

(** ** The further properties on explicit inputs *)

Lemma consistency_loss_zero_when_all_masked_witness :
  ("kl" = "kl" \/ ("kl" = "crf_kl" /\ false = true))
  /\ [[[1; 2]]] <> ([] : Tensor3)
  /\ 1 <> 0
  /\ Forall (Forall (fun m => m = false)) [[false]]
  /\ _calculate_cl_loss
       (train true (Fixture.init Fixture.labels Fixture.enc 0 false true 1
                      "kl" (1 / 2) false))
       [[[1; 2]]] [[[0; 3]]] [[false]] 1
     = Ok 0.
Proof.
  assert (Htype : "kl" = "kl" \/ ("kl" = "crf_kl" /\ false = true))
    by (left; reflexivity).
  assert (Hne : [[[1; 2]]] <> ([] : Tensor3)) by discriminate.
  assert (HT : 1 <> 0) by lra.
  assert (Hmask : Forall (Forall (fun m => m = false)) [[false]])
    by (repeat constructor).
  repeat (split; [assumption|]).
  exact (consistency_loss_zero_when_all_masked
           Fixture.Encoder_from_config Fixture.WordDropout_new
           Fixture.CRF Fixture.PartialCRF Fixture.PAD_LABEL_ID
           Fixture.CrossEntropyLoss Fixture.Linear_weight Fixture.Linear_bias
           Fixture.labels Fixture.enc 0 false 1 "kl" (1 / 2) false true
           [[[1; 2]]] [[[0; 3]]] [[false]] 1 Htype Hne HT Hmask).
Defined.

Lemma crf_targets_kept_where_unmasked_witness :
  at2 Fixture.label_ids 0 1 = Some 2%Z
  /\ at2 (Fixture.get_tokens_mask Fixture.tokens 3) 0 1 = Some true
  /\ exists decoder crf_targets,
       _calculate_loss
         (train true (Fixture.init Fixture.labels Fixture.enc 0 true false 1
                        "kl" (1 / 2) false))
         [[[1; 0; 0]; [0; 1; 0]; [0; 0; 1]]] (Some Fixture.label_ids)
         (Fixture.get_tokens_mask Fixture.tokens 3)
       = Ok (- crf_call decoder [[[1; 0; 0]; [0; 1; 0]; [0; 0; 1]]] crf_targets
                 "mean" (Fixture.get_tokens_mask Fixture.tokens 3))
       /\ at2 crf_targets 0 1 = Some 2%Z.
Proof.
  split; [reflexivity|]. split; [reflexivity|].
  destruct (crf_targets_kept_where_unmasked
              Fixture.Encoder_from_config Fixture.WordDropout_new
              Fixture.CRF Fixture.PartialCRF Fixture.PAD_LABEL_ID
              Fixture.CrossEntropyLoss Fixture.Linear_weight
              Fixture.Linear_bias
              Fixture.labels Fixture.enc 0 false 1 "kl" (1 / 2) false true
              [[[1; 0; 0]; [0; 1; 0]; [0; 0; 1]]] Fixture.label_ids
              (Fixture.get_tokens_mask Fixture.tokens 3))
    as (decoder & crf_targets & _ & Hloss & Hkept).
  exists decoder, crf_targets. split; [exact Hloss|].
  exact (Hkept 0%nat 1%nat 2%Z eq_refl eq_refl).
Defined.

Lemma crf_loss_ignores_masked_labels_witness :
  Forall2 (fun r r' : list Z => length r = length r')
    [[1; 2; -100]%Z] [[1; 2; 7]%Z]
  /\ (forall b s,
        at2 [[true; true; false]] b s = Some true ->
        at2 [[1; 2; -100]%Z] b s = at2 [[1; 2; 7]%Z] b s)
  /\ _calculate_loss
       (train true (Fixture.init Fixture.labels Fixture.enc 0 true false 1
                      "kl" (1 / 2) false))
       [[[1; 0; 0]; [0; 1; 0]; [0; 0; 1]]] (Some [[1; 2; -100]%Z])
       [[true; true; false]]
     = _calculate_loss
         (train true (Fixture.init Fixture.labels Fixture.enc 0 true false 1
                        "kl" (1 / 2) false))
         [[[1; 0; 0]; [0; 1; 0]; [0; 0; 1]]] (Some [[1; 2; 7]%Z])
         [[true; true; false]].
Proof.
  assert (Hshape : Forall2 (fun r r' : list Z => length r = length r')
                     [[1; 2; -100]%Z] [[1; 2; 7]%Z])
    by (repeat constructor).
  assert (Hagree : forall b s,
             at2 [[true; true; false]] b s = Some true ->
             at2 [[1; 2; -100]%Z] b s = at2 [[1; 2; 7]%Z] b s).
  { intros [|b] s; [|discriminate].
    destruct s as [|[|[|s]]]; try reflexivity; discriminate. }
  split; [exact Hshape|]. split; [exact Hagree|].
  exact (crf_loss_ignores_masked_labels
           Fixture.Encoder_from_config Fixture.WordDropout_new
           Fixture.CRF Fixture.PartialCRF Fixture.PAD_LABEL_ID
           Fixture.CrossEntropyLoss Fixture.Linear_weight Fixture.Linear_bias
           Fixture.labels Fixture.enc 0 false 1 "kl" (1 / 2) false true
           [[[1; 0; 0]; [0; 1; 0]; [0; 0; 1]]] [[1; 2; -100]%Z] [[1; 2; 7]%Z]
           [[true; true; false]] Hshape Hagree).
Defined.


